From Stdlib Require Import ZArith Lia List Bool String Sorting.Permutation Sorting.Sorted.
Import ListNotations.
Open Scope Z_scope.

(** * Wall-clock time of a JS [Date]

    A [Date] is modelled by its time value in milliseconds, read in a local
    time zone with a fixed offset (no daylight-saving shifts): the value is
    the local wall-clock time counted from 1970-01-01 00:00. *)

Definition MS_PER_MINUTE : Z := 60000.
Definition MS_PER_HOUR : Z := 3600000.
Definition MS_PER_DAY : Z := 86400000.

(** Local day number of a time value, and the time within that day. *)
Definition Day (t : Z) : Z := t / MS_PER_DAY.
Definition TimeWithinDay (t : Z) : Z := t mod MS_PER_DAY.

(** Proleptic Gregorian calendar: day number from (year, month 1..12, date).
    Linear in the date, so an out-of-range date overflows into the next
    month as [MakeDay] does. *)
Definition days_from_civil (y m d : Z) : Z :=
  let y' := if m <=? 2 then y - 1 else y in
  let era := y' / 400 in
  let yoe := y' - era * 400 in
  let mp := if 2 <? m then m - 3 else m + 9 in
  let doy := (153 * mp + 2) / 5 + d - 1 in
  let doe := yoe * 365 + yoe / 4 - yoe / 100 + doy in
  era * 146097 + doe - 719468.

(** (year, month 1..12, date) of a day number. *)
Definition civil_from_days (z : Z) : Z * Z * Z :=
  let z' := z + 719468 in
  let era := z' / 146097 in
  let doe := z' - era * 146097 in
  let yoe := (doe - doe / 1460 + doe / 36524 - doe / 146096) / 365 in
  let doy := doe - (365 * yoe + yoe / 4 - yoe / 100) in
  let mp := (5 * doy + 2) / 153 in
  let d := doy - (153 * mp + 2) / 5 + 1 in
  let m := if mp <? 10 then mp + 3 else mp - 9 in
  let y := yoe + era * 400 in
  (if m <=? 2 then y + 1 else y, m, d).

(** ** [Date] getters and setters (local time) *)

Definition getFullYear (t : Z) : Z := let '(y, _, _) := civil_from_days (Day t) in y.
(** Month index, 0 = January. *)
Definition getMonth (t : Z) : Z := let '(_, m, _) := civil_from_days (Day t) in m - 1.
Definition getDate (t : Z) : Z := let '(_, _, d) := civil_from_days (Day t) in d.
(** 0 = Sunday; 1970-01-01 was a Thursday. *)
Definition getDay (t : Z) : Z := (Day t + 4) mod 7.
Definition getHours (t : Z) : Z := TimeWithinDay t / MS_PER_HOUR.
Definition getMinutes (t : Z) : Z := (TimeWithinDay t / MS_PER_MINUTE) mod 60.

(** [d.setHours(h, m, s, ms)]: same local day, new time of day (components
    may be out of range; they carry over as [MakeTime] does). *)
Definition setHours (t h m s ms : Z) : Z :=
  Day t * MS_PER_DAY + h * MS_PER_HOUR + m * MS_PER_MINUTE + s * 1000 + ms.

(** [d.setMinutes(m)]: keeps the hours, seconds and milliseconds. *)
Definition setMinutes (t m : Z) : Z :=
  Day t * MS_PER_DAY + getHours t * MS_PER_HOUR + m * MS_PER_MINUTE
  + t mod MS_PER_MINUTE.

(** [d.setDate(dt)]: same year and month, new date, same time of day. *)
Definition setDate (t dt : Z) : Z :=
  days_from_civil (getFullYear t) (getMonth t + 1) dt * MS_PER_DAY
  + TimeWithinDay t.

(** [d.setFullYear(y)]: same month and date, new year, same time of day. *)
Definition setFullYear (t y : Z) : Z :=
  days_from_civil y (getMonth t + 1) (getDate t) * MS_PER_DAY + TimeWithinDay t.

(** * Data model (src/src/algorithm.ts) *)

Record TimeRange := mkTimeRange {
  startMinutes : Z;
  endMinutes : Z
}.

(** An element of [Schedule.slots]. *)
Record ScheduleSlot := mkScheduleSlot {
  dayOfWeek : Z;
  timeRange : TimeRange
}.

Module Schedule.
Record t := mk {
  id : string;
  name : string;
  slots : list ScheduleSlot
}.
End Schedule.

Inductive TaskStatus := NOT_STARTED | IN_PROGRESS | COMPLETED.

Definition TaskStatus_eqb (a b : TaskStatus) : bool :=
  match a, b with
  | NOT_STARTED, NOT_STARTED | IN_PROGRESS, IN_PROGRESS
  | COMPLETED, COMPLETED => true
  | _, _ => false
  end.

Inductive TaskChunkStatus := CHUNK_NOT_STARTED | CHUNK_IN_PROGRESS | CHUNK_COMPLETED.

Module TaskChunk.
Record t := mk {
  taskId : string;
  start : Z;
  end_ : Z;
  duration : Z;
  status : TaskChunkStatus
}.
End TaskChunk.

Module Task.
Record t := mk {
  id : string;
  name : string;
  duration : Z;
  scheduleId : string;
  status : TaskStatus;
  completedAt : option Z;
  scheduledStartDate : option Z;
  scheduledEndDate : option Z;
  chunkSize : option Z;
  chunks : list TaskChunk.t
}.

(** [task.scheduledStartDate = s; task.scheduledEndDate = e] *)
Definition set_scheduled (x : t) (s e : Z) : t :=
  mk (id x) (name x) (duration x) (scheduleId x) (status x) (completedAt x)
     (Some s) (Some e) (chunkSize x) (chunks x).
End Task.

Record ScheduleOptions := mkScheduleOptions {
  startDate : Z;
  endDate : Z
}.

(** * The scheduler *)

Definition isSameDay (date1 date2 : Z) : bool :=
  (getFullYear date1 =? getFullYear date2)
  && (getMonth date1 =? getMonth date2)
  && (getDate date1 =? getDate date2).

Definition findSlotForTask (task : Task.t) (slots : list Schedule.t)
  : option Schedule.t :=
  find (fun slot => String.eqb (Schedule.id slot) (Task.scheduleId task)) slots.

(** [Array.prototype.sort] with comparator [a.startMinutes - b.startMinutes]:
    a stable sort, here insertion sort; an element is placed before the first
    element of the (already sorted) rest whose start is not smaller. *)
Fixpoint insert_by_start (x : ScheduleSlot) (l : list ScheduleSlot) : list ScheduleSlot :=
  match l with
  | [] => [x]
  | y :: l' =>
      if startMinutes (timeRange x) <=? startMinutes (timeRange y)
      then x :: l
      else y :: insert_by_start x l'
  end.

Fixpoint sort_by_start (l : list ScheduleSlot) : list ScheduleSlot :=
  match l with
  | [] => []
  | x :: l' => insert_by_start x (sort_by_start l')
  end.

(** The minute of day of [lastEndTime] when it lies on the day of [date]. *)
Definition lastEndMinutes_of (date : Z) (lastEndTime : option Z) : Z :=
  match lastEndTime with
  | Some l => if isSameDay date l then getHours l * 60 + getMinutes l else 0
  | None => 0
  end.

Definition getAvailableDurationsForDate (date : Z) (slot : Schedule.t)
  (lastEndTime : option Z) : list ScheduleSlot :=
  let dayOfWeek_ := getDay date in
  let lastEndMinutes := lastEndMinutes_of date lastEndTime in
  sort_by_start
    (filter (fun d =>
       if endMinutes (timeRange d) <=? lastEndMinutes then false
       else if startMinutes (timeRange d) <? lastEndMinutes
            then 0 <? endMinutes (timeRange d) - lastEndMinutes
            else true)
      (filter (fun d => dayOfWeek d =? dayOfWeek_) (Schedule.slots slot))).

(** The [for (const duration of durations)] loop for one day. *)
Fixpoint tryDurations (currentDate : Z) (taskDuration : Z)
  (lastEndTime : option Z) (durations : list ScheduleSlot) : option (Z * Z) :=
  match durations with
  | [] => None
  | duration :: rest =>
      let start :=
        match lastEndTime with
        | Some l =>
            if isSameDay currentDate l
               && (startMinutes (timeRange duration) <? getHours l * 60 + getMinutes l)
            then l
            else setHours currentDate (startMinutes (timeRange duration) / 60)
                   (Z.rem (startMinutes (timeRange duration)) 60) 0 0
        | None =>
            setHours currentDate (startMinutes (timeRange duration) / 60)
              (Z.rem (startMinutes (timeRange duration)) 60) 0 0
        end in
      let end_ := setMinutes start (getMinutes start + taskDuration) in
      let endMinutes_ := getHours end_ * 60 + getMinutes end_ in
      if endMinutes_ <=? endMinutes (timeRange duration)
      then Some (start, end_)
      else tryDurations currentDate taskDuration lastEndTime rest
  end.

(** [currentDate.setDate(currentDate.getDate() + 1); currentDate.setHours(0, 0, 0, 0)] *)
Definition nextDay (currentDate : Z) : Z :=
  setHours (setDate currentDate (getDate currentDate + 1)) 0 0 0 0.

(** The [while (currentDate <= endDate)] loop, run for at most [fuel] rounds. *)
Fixpoint scanDays (fuel : nat) (slot : Schedule.t) (taskDuration : Z)
  (lastEndTime : option Z) (endDate : Z) (currentDate : Z) {struct fuel}
  : option (Z * Z) :=
  match fuel with
  | O => None
  | S fuel' =>
      if currentDate <=? endDate then
        match tryDurations currentDate taskDuration lastEndTime
                (getAvailableDurationsForDate currentDate slot lastEndTime) with
        | Some r => Some r
        | None => scanDays fuel' slot taskDuration lastEndTime endDate
                    (nextDay currentDate)
        end
      else None
  end.

(** Enough rounds for the loop to run out: one per day from [currentDate]
    to [endDate], and the round that finds [currentDate > endDate]. *)
Definition scanFuel (currentDate endDate : Z) : nat :=
  Z.to_nat (Day endDate - Day currentDate) + 2.

(** [endDate.setFullYear(endDate.getFullYear() + 1)]: look ahead up to a year. *)
Definition lookAheadEnd (date : Z) : Z := setFullYear date (getFullYear date + 1).

(** [currentDate] before the loop: [lastEndTime] when it is after [date]. *)
Definition searchStart (date : Z) (lastEndTime : option Z) : Z :=
  match lastEndTime with
  | Some l => if date <? l then l else date
  | None => date
  end.

Definition getNextAvailableTime (date : Z) (slot : Schedule.t)
  (taskDuration : Z) (lastEndTime : option Z) : option (Z * Z) :=
  let endDate := lookAheadEnd date in
  let currentDate := searchStart date lastEndTime in
  scanDays (scanFuel currentDate endDate) slot taskDuration lastEndTime
    endDate currentDate.

Definition canTaskFitInSlot (task : Task.t) (slot : Schedule.t) : bool :=
  existsb (fun d =>
    Task.duration task <=? endMinutes (timeRange d) - startMinutes (timeRange d))
    (Schedule.slots slot).

(** The body of [for (const task of result)]: the task as left by the body,
    and the new [lastEndTime]. *)
Definition schedule_step (slots : list Schedule.t) (options : ScheduleOptions)
  (lastEndTime : option Z) (task : Task.t) : Task.t * option Z :=
  if TaskStatus_eqb (Task.status task) COMPLETED then (task, lastEndTime) else
  match findSlotForTask task slots with
  | None => (task, lastEndTime)
  | Some slot =>
      if negb (canTaskFitInSlot task slot) then (task, lastEndTime) else
      match getNextAvailableTime (startDate options) slot (Task.duration task)
              lastEndTime with
      | Some (start, end_) =>
          if end_ <=? endDate options
          then (Task.set_scheduled task start end_, Some end_)
          else (task, lastEndTime)
      | None => (task, lastEndTime)
      end
  end.

Fixpoint schedule_loop (slots : list Schedule.t) (options : ScheduleOptions)
  (lastEndTime : option Z) (tasks : list Task.t) {struct tasks} : list Task.t :=
  match tasks with
  | [] => []
  | task :: rest =>
      let stepped := schedule_step slots options lastEndTime task in
      fst stepped :: schedule_loop slots options (snd stepped) rest
  end.

(** [schedule(tasks, slots, options)], the implementation at the end of
    algorithm.ts (the earlier declaration of [schedule] there returns its
    input as it is and is superseded). The tasks of the array are distinct
    records, so updating them in place and returning the copied array is
    returning the updated records in order. *)
Definition schedule (tasks : list Task.t) (slots : list Schedule.t)
  (options : ScheduleOptions) : list Task.t :=
  schedule_loop slots options None tasks.

(** * Views of a run used to state its properties *)

(** The placement committed by [schedule_step], if any. *)
Definition commit_of (slots : list Schedule.t) (options : ScheduleOptions)
  (lastEndTime : option Z) (task : Task.t) : option (Z * Z) :=
  if TaskStatus_eqb (Task.status task) COMPLETED then None else
  match findSlotForTask task slots with
  | None => None
  | Some slot =>
      if negb (canTaskFitInSlot task slot) then None else
      match getNextAvailableTime (startDate options) slot (Task.duration task)
              lastEndTime with
      | Some (start, end_) =>
          if end_ <=? endDate options then Some (start, end_) else None
      | None => None
      end
  end.

Definition next_cursor (lastEndTime : option Z) (c : option (Z * Z)) : option Z :=
  match c with
  | Some (_, e) => Some e
  | None => lastEndTime
  end.

(** The commits of a run, one entry per task in input order. *)
Fixpoint schedule_trace (slots : list Schedule.t) (options : ScheduleOptions)
  (lastEndTime : option Z) (tasks : list Task.t) {struct tasks}
  : list (option (Z * Z)) :=
  match tasks with
  | [] => []
  | task :: rest =>
      let c := commit_of slots options lastEndTime task in
      c :: schedule_trace slots options (next_cursor lastEndTime c) rest
  end.

Definition apply_commit (task : Task.t) (c : option (Z * Z)) : Task.t :=
  match c with
  | Some (s, e) => Task.set_scheduled task s e
  | None => task
  end.

(** The fields the scheduling decision reads. *)
Definition task_key (task : Task.t) : TaskStatus * Z * string :=
  (Task.status task, Task.duration task, Task.scheduleId task).

Definition scheduled_fields (task : Task.t) : option Z * option Z :=
  (Task.scheduledStartDate task, Task.scheduledEndDate task).

Definition with_status (task : Task.t) (st : TaskStatus) : Task.t :=
  Task.mk (Task.id task) (Task.name task) (Task.duration task)
    (Task.scheduleId task) st (Task.completedAt task)
    (Task.scheduledStartDate task) (Task.scheduledEndDate task)
    (Task.chunkSize task) (Task.chunks task).

(** Well-formed schedule entries (data model): [0 <= startMinutes <
    endMinutes < 1440], day of week in [0..6]. *)
Definition wf_slot (d : ScheduleSlot) : Prop :=
  0 <= startMinutes (timeRange d) < endMinutes (timeRange d)
  /\ endMinutes (timeRange d) < 1440
  /\ 0 <= dayOfWeek d <= 6.

Definition wf_schedule (sch : Schedule.t) : Prop := Forall wf_slot (Schedule.slots sch).

(** The [while (currentDate <= endDate)] loop of [getNextAvailableTime] as a
    big-step relation, with no bound on the number of rounds. *)
Inductive scanDays_rel (slot : Schedule.t) (taskDuration : Z)
  (lastEndTime : option Z) (endDate : Z) : Z -> option (Z * Z) -> Prop :=
| scan_exit currentDate :
    endDate < currentDate ->
    scanDays_rel slot taskDuration lastEndTime endDate currentDate None
| scan_found currentDate r :
    currentDate <= endDate ->
    tryDurations currentDate taskDuration lastEndTime
      (getAvailableDurationsForDate currentDate slot lastEndTime) = Some r ->
    scanDays_rel slot taskDuration lastEndTime endDate currentDate (Some r)
| scan_next currentDate nextDate r :
    currentDate <= endDate ->
    tryDurations currentDate taskDuration lastEndTime
      (getAvailableDurationsForDate currentDate slot lastEndTime) = None ->
    nextDate = nextDay currentDate ->
    scanDays_rel slot taskDuration lastEndTime endDate nextDate r ->
    scanDays_rel slot taskDuration lastEndTime endDate currentDate r.

(** * Scenarios of the test suite *)

Definition at_time (y mo d hh mm : Z) : Z :=
  days_from_civil y mo d * MS_PER_DAY + hh * MS_PER_HOUR + mm * MS_PER_MINUTE.

Definition nineToFive (dow : Z) : ScheduleSlot :=
  mkScheduleSlot dow (mkTimeRange (9 * 60) (17 * 60)).

Definition workday : Schedule.t :=
  Schedule.mk "workday" "Regular Workday" [nineToFive 1; nineToFive 2].

Definition mkTask (i : string) (dur : Z) (st : TaskStatus) : Task.t :=
  Task.mk i i dur "workday" st None None None None [].

(** 2024-03-25 to 2024-03-29, Monday to Friday. *)
Definition week : ScheduleOptions :=
  mkScheduleOptions (at_time 2024 3 25 0 0) (at_time 2024 3 29 0 0).

Definition scheduled (ts : list Task.t) : list (option Z * option Z) :=
  map (fun t => (Task.scheduledStartDate t, Task.scheduledEndDate t)) ts.

(** A schedule with a short late-evening window on Monday and a long morning
    window on Tuesday. *)
Definition lateNight : Schedule.t :=
  Schedule.mk "late" "Late night"
    [mkScheduleSlot 1 (mkTimeRange (23 * 60) (23 * 60 + 59));
     mkScheduleSlot 2 (mkTimeRange 0 (10 * 60))].

Definition lateTask : Task.t :=
  Task.mk "1" "Two hours" 120 "late" NOT_STARTED None None None None [].

(** The same week, starting at noon on Monday. *)
Definition middayWeek : ScheduleOptions :=
  mkScheduleOptions (at_time 2024 3 25 12 0) (at_time 2024 3 29 0 0).

(** * Properties of the calendar *)

Lemma civil_roundtrip (z : Z) :
  let '(y, m, d) := civil_from_days z in days_from_civil y m d = z.
Proof.
  unfold civil_from_days, days_from_civil.
  set (z' := z + 719468).
  set (era := z' / 146097).
  set (doe := z' - era * 146097).
  set (yoe := (doe - doe / 1460 + doe / 36524 - doe / 146096) / 365).
  set (doy := doe - (365 * yoe + yoe / 4 - yoe / 100)).
  set (mp := (5 * doy + 2) / 153).
  assert (Hdoe : 0 <= doe < 146097).
  { subst doe era. clearbody z'. clear. Z.div_mod_to_equations. lia. }
  assert (Hyoe : 0 <= yoe <= 399).
  { subst yoe. clearbody doe. clear -Hdoe.
    assert (doe = 146096 \/ doe < 146096) as [->|H1] by lia.
    { vm_compute; split; discriminate. }
    assert (doe / 146096 = 0) as -> by (apply Z.div_small; lia).
    Z.div_mod_to_equations. lia. }
  assert (Hdoy : 0 <= doy <= 365).
  { subst doy yoe. clearbody doe. clear -Hdoe. Z.div_mod_to_equations. lia. }
  assert (Hmp : 0 <= mp <= 11).
  { subst mp. clearbody doy. clear -Hdoy. Z.div_mod_to_equations. lia. }
  destruct (mp <? 10) eqn:E1.
  - apply Z.ltb_lt in E1.
    assert (E2 : (mp + 3 <=? 2) = false) by (apply Z.leb_gt; lia).
    rewrite !E2.
    assert (E3 : (2 <? mp + 3) = true) by (apply Z.ltb_lt; lia).
    rewrite !E3.
    replace (mp + 3 - 3) with mp by lia.
    replace ((yoe + era * 400) / 400) with era.
    2:{ rewrite Z.add_comm, Z.div_add_l by lia. rewrite Z.div_small by lia. lia. }
    replace (yoe + era * 400 - era * 400) with yoe by lia.
    subst doy doe z'. lia.
  - apply Z.ltb_ge in E1.
    assert (E2 : (mp - 9 <=? 2) = true) by (apply Z.leb_le; lia).
    rewrite !E2.
    assert (E3 : (2 <? mp - 9) = false) by (apply Z.ltb_ge; lia).
    rewrite !E3.
    replace (mp - 9 + 9) with mp by lia.
    replace (yoe + era * 400 + 1 - 1) with (yoe + era * 400) by lia.
    replace ((yoe + era * 400) / 400) with era.
    2:{ rewrite Z.add_comm, Z.div_add_l by lia. rewrite Z.div_small by lia. lia. }
    replace (yoe + era * 400 - era * 400) with yoe by lia.
    subst doy doe z'. lia.
Qed.

Lemma Day_TimeWithinDay (t : Z) :
  t = Day t * MS_PER_DAY + TimeWithinDay t /\ 0 <= TimeWithinDay t < MS_PER_DAY.
Proof.
  unfold Day, TimeWithinDay, MS_PER_DAY. Z.div_mod_to_equations. lia.
Qed.

Lemma Day_of (d w : Z) : 0 <= w < MS_PER_DAY -> Day (d * MS_PER_DAY + w) = d.
Proof. unfold Day, MS_PER_DAY. intros. Z.div_mod_to_equations. nia. Qed.

Lemma TimeWithinDay_of (d w : Z) :
  0 <= w < MS_PER_DAY -> TimeWithinDay (d * MS_PER_DAY + w) = w.
Proof. unfold TimeWithinDay, MS_PER_DAY. intros. Z.div_mod_to_equations. nia. Qed.

Lemma isSameDay_spec (a b : Z) : isSameDay a b = (Day a =? Day b).
Proof.
  unfold isSameDay, getFullYear, getMonth, getDate.
  destruct (Day a =? Day b) eqn:E.
  - apply Z.eqb_eq in E. rewrite E.
    destruct (civil_from_days (Day b)) as [[y m] d].
    rewrite !Z.eqb_refl. reflexivity.
  - apply Z.eqb_neq in E.
    pose proof (civil_roundtrip (Day a)) as Ra.
    pose proof (civil_roundtrip (Day b)) as Rb.
    destruct (civil_from_days (Day a)) as [[ya ma] da].
    destruct (civil_from_days (Day b)) as [[yb mb] db].
    destruct (ya =? yb) eqn:Y, (ma - 1 =? mb - 1) eqn:M, (da =? db) eqn:D;
      simpl; try reflexivity.
    apply Z.eqb_eq in Y, M, D.
    exfalso. apply E. rewrite <- Ra, <- Rb.
    replace mb with ma by lia. subst. reflexivity.
Qed.

(** [getHours() * 60 + getMinutes()] is the minute of the day. *)
Lemma minuteOfDay (t : Z) :
  getHours t * 60 + getMinutes t = TimeWithinDay t / MS_PER_MINUTE.
Proof.
  unfold getHours, getMinutes, MS_PER_HOUR, MS_PER_MINUTE.
  pose proof (Day_TimeWithinDay t) as [_ H]. unfold MS_PER_DAY in H.
  set (w := TimeWithinDay t) in *. clearbody w.
  Z.div_mod_to_equations. lia.
Qed.

Lemma setHours_minute (t mins : Z) :
  0 <= mins ->
  setHours t (mins / 60) (Z.rem mins 60) 0 0 = Day t * MS_PER_DAY + mins * MS_PER_MINUTE.
Proof.
  intros H. unfold setHours, MS_PER_HOUR, MS_PER_MINUTE.
  rewrite Z.rem_mod_nonneg by lia.
  Z.div_mod_to_equations. lia.
Qed.

Lemma setMinutes_add (t d : Z) :
  setMinutes t (getMinutes t + d) = t + d * MS_PER_MINUTE.
Proof.
  unfold setMinutes, getHours, getMinutes.
  pose proof (Day_TimeWithinDay t) as [Ht Hw].
  unfold MS_PER_DAY, MS_PER_HOUR, MS_PER_MINUTE in *.
  set (w := TimeWithinDay t) in *. set (dd := Day t) in *. clearbody w dd.
  subst t. Z.div_mod_to_equations. lia.
Qed.

Lemma days_from_civil_succ (y m d : Z) :
  days_from_civil y m (d + 1) = days_from_civil y m d + 1.
Proof. unfold days_from_civil. lia. Qed.

Lemma nextDay_spec (t : Z) : nextDay t = (Day t + 1) * MS_PER_DAY.
Proof.
  unfold nextDay, setDate, getFullYear, getMonth, getDate.
  pose proof (civil_roundtrip (Day t)) as R.
  destruct (civil_from_days (Day t)) as [[y m] d].
  replace (m - 1 + 1) with m by lia.
  rewrite days_from_civil_succ, R.
  pose proof (Day_TimeWithinDay t) as [_ Hw].
  unfold setHours. rewrite Day_of by exact Hw. lia.
Qed.

(** * The window resolver *)

Definition start_le (a b : ScheduleSlot) : Prop :=
  startMinutes (timeRange a) <= startMinutes (timeRange b).

Lemma insert_by_start_perm (x : ScheduleSlot) (l : list ScheduleSlot) :
  Permutation (insert_by_start x l) (x :: l).
Proof.
  induction l as [|y l IH]; simpl; [reflexivity|].
  destruct (_ <=? _); [reflexivity|].
  rewrite IH. apply perm_swap.
Qed.

Lemma sort_by_start_perm (l : list ScheduleSlot) : Permutation (sort_by_start l) l.
Proof.
  induction l as [|x l IH]; simpl; [reflexivity|].
  rewrite insert_by_start_perm, IH. reflexivity.
Qed.

Lemma insert_by_start_hd (a x : ScheduleSlot) (l : list ScheduleSlot) :
  HdRel start_le a l -> start_le a x -> HdRel start_le a (insert_by_start x l).
Proof.
  intros Hl Hx. destruct l as [|y l]; simpl.
  - constructor. exact Hx.
  - destruct (_ <=? _); constructor; [exact Hx|]. inversion Hl; assumption.
Qed.

Lemma insert_by_start_sorted (x : ScheduleSlot) (l : list ScheduleSlot) :
  Sorted start_le l -> Sorted start_le (insert_by_start x l).
Proof.
  induction l as [|y l IH]; simpl; intros Hs.
  - repeat constructor.
  - destruct (startMinutes (timeRange x) <=? startMinutes (timeRange y)) eqn:E.
    + apply Z.leb_le in E. constructor; [exact Hs|]. constructor. exact E.
    + apply Z.leb_gt in E. inversion Hs; subst.
      constructor; [apply IH; assumption|].
      apply insert_by_start_hd; [assumption|]. unfold start_le. lia.
Qed.

Lemma sort_by_start_sorted (l : list ScheduleSlot) : Sorted start_le (sort_by_start l).
Proof.
  induction l as [|x l IH]; simpl; [constructor|].
  apply insert_by_start_sorted. exact IH.
Qed.

Lemma lastEndMinutes_of_spec (date : Z) (lastEndTime : option Z) :
  lastEndMinutes_of date lastEndTime =
  match lastEndTime with
  | Some l => if Day l =? Day date then TimeWithinDay l / MS_PER_MINUTE else 0
  | None => 0
  end.
Proof.
  destruct lastEndTime as [l|]; simpl; [|reflexivity].
  rewrite isSameDay_spec, Z.eqb_sym, minuteOfDay. reflexivity.
Qed.

Lemma getAvailableDurationsForDate_in (date : Z) (slot : Schedule.t)
  (lastEndTime : option Z) (w : ScheduleSlot) :
  In w (getAvailableDurationsForDate date slot lastEndTime) ->
  In w (Schedule.slots slot) /\ dayOfWeek w = getDay date
  /\ lastEndMinutes_of date lastEndTime < endMinutes (timeRange w).
Proof.
  unfold getAvailableDurationsForDate. intros H.
  apply (Permutation_in _ (sort_by_start_perm _)) in H.
  apply filter_In in H as [H H2]. apply filter_In in H as [H H1].
  apply Z.eqb_eq in H1.
  destruct (endMinutes (timeRange w) <=? lastEndMinutes_of date lastEndTime) eqn:E;
    [discriminate|].
  apply Z.leb_gt in E. auto.
Qed.

(** * The next-fit search *)

Lemma tryDurations_some (currentDate taskDuration : Z) (lastEndTime : option Z)
  (ws : list ScheduleSlot) (s e : Z) :
  tryDurations currentDate taskDuration lastEndTime ws = Some (s, e) ->
  exists w, In w ws /\ e = s + taskDuration * MS_PER_MINUTE
  /\ getHours e * 60 + getMinutes e <= endMinutes (timeRange w)
  /\ ((exists l, lastEndTime = Some l /\ Day l = Day currentDate
              /\ startMinutes (timeRange w) < TimeWithinDay l / MS_PER_MINUTE
              /\ s = l)
      \/ (s = setHours currentDate (startMinutes (timeRange w) / 60)
                (Z.rem (startMinutes (timeRange w)) 60) 0 0
          /\ forall l, lastEndTime = Some l -> Day l = Day currentDate ->
             TimeWithinDay l / MS_PER_MINUTE <= startMinutes (timeRange w))).
Proof.
  induction ws as [|w ws IH]; simpl; [discriminate|].
  set (st := match lastEndTime with
             | Some l => if isSameDay currentDate l
                           && (startMinutes (timeRange w) <? getHours l * 60 + getMinutes l)
                         then l
                         else setHours currentDate (startMinutes (timeRange w) / 60)
                                (Z.rem (startMinutes (timeRange w)) 60) 0 0
             | None => setHours currentDate (startMinutes (timeRange w) / 60)
                         (Z.rem (startMinutes (timeRange w)) 60) 0 0
             end).
  destruct (_ <=? endMinutes (timeRange w)) eqn:Fit.
  2:{ intros H. destruct (IH H) as [w' [Hin Rest]]. exists w'. split; [right; exact Hin|exact Rest]. }
  intros H. injection H as <- <-.
  apply Z.leb_le in Fit. rewrite setMinutes_add in Fit |- *.
  exists w. split; [left; reflexivity|]. split; [reflexivity|]. split; [exact Fit|].
  subst st. destruct lastEndTime as [l|].
  - rewrite isSameDay_spec, minuteOfDay.
    destruct (Day currentDate =? Day l) eqn:Same;
      destruct (startMinutes (timeRange w) <? TimeWithinDay l / MS_PER_MINUTE) eqn:Lt;
      simpl.
    + left. apply Z.eqb_eq in Same. apply Z.ltb_lt in Lt. exists l. auto.
    + right. split; [reflexivity|]. intros l' Hl' _. injection Hl' as <-.
      apply Z.ltb_ge in Lt. exact Lt.
    + right. split; [reflexivity|]. intros l' Hl' Hd. injection Hl' as <-.
      apply Z.eqb_neq in Same. congruence.
    + right. split; [reflexivity|]. intros l' Hl' Hd. injection Hl' as <-.
      apply Z.eqb_neq in Same. congruence.
  - right. split; [reflexivity|]. intros l' Hl'. discriminate.
Qed.

Lemma nextDay_gt (t : Z) : t < nextDay t.
Proof.
  rewrite nextDay_spec. pose proof (Day_TimeWithinDay t). unfold MS_PER_DAY in *. lia.
Qed.

Lemma scanDays_some (fuel : nat) (slot : Schedule.t) (taskDuration : Z)
  (lastEndTime : option Z) (endDate currentDate s e : Z) :
  scanDays fuel slot taskDuration lastEndTime endDate currentDate = Some (s, e) ->
  exists c, currentDate <= c <= endDate
  /\ tryDurations c taskDuration lastEndTime
       (getAvailableDurationsForDate c slot lastEndTime) = Some (s, e).
Proof.
  revert currentDate. induction fuel as [|fuel IH]; simpl; intros cur; [discriminate|].
  destruct (cur <=? endDate) eqn:Le; [|discriminate].
  apply Z.leb_le in Le.
  destruct (tryDurations _ _ _ _) as [[s' e']|] eqn:T.
  - intros H. injection H as <- <-. exists cur. split; [lia|exact T].
  - intros H. destruct (IH _ H) as [c [Hc Tc]]. exists c.
    pose proof (nextDay_gt cur). split; [lia|exact Tc].
Qed.

(** * The sequential allocator *)

Definition cursor_ok (lastEndTime : option Z) : Prop :=
  match lastEndTime with
  | Some l => l mod MS_PER_MINUTE = 0
  | None => True
  end.

Lemma schedule_step_commit_of (slots : list Schedule.t) (options : ScheduleOptions)
  (lastEndTime : option Z) (task : Task.t) :
  schedule_step slots options lastEndTime task
  = (apply_commit task (commit_of slots options lastEndTime task),
     next_cursor lastEndTime (commit_of slots options lastEndTime task)).
Proof.
  unfold schedule_step, commit_of.
  destruct (TaskStatus_eqb _ _); [reflexivity|].
  destruct (findSlotForTask _ _); [|reflexivity].
  destruct (negb _); [reflexivity|].
  destruct (getNextAvailableTime _ _ _ _) as [[s e]|]; [|reflexivity].
  destruct (e <=? _); reflexivity.
Qed.

Lemma schedule_loop_cons (slots : list Schedule.t) (options : ScheduleOptions)
  (lastEndTime : option Z) (task : Task.t) (rest : list Task.t) :
  schedule_loop slots options lastEndTime (task :: rest)
  = apply_commit task (commit_of slots options lastEndTime task)
    :: schedule_loop slots options
         (next_cursor lastEndTime (commit_of slots options lastEndTime task)) rest.
Proof. simpl. rewrite schedule_step_commit_of. reflexivity. Qed.

Lemma schedule_trace_cons (slots : list Schedule.t) (options : ScheduleOptions)
  (lastEndTime : option Z) (task : Task.t) (rest : list Task.t) :
  schedule_trace slots options lastEndTime (task :: rest)
  = commit_of slots options lastEndTime task
    :: schedule_trace slots options
         (next_cursor lastEndTime (commit_of slots options lastEndTime task)) rest.
Proof. reflexivity. Qed.

Lemma schedule_loop_nth (slots : list Schedule.t) (options : ScheduleOptions)
  (tasks : list Task.t) (lastEndTime : option Z) (i : nat) (t : Task.t)
  (c : option (Z * Z)) :
  nth_error tasks i = Some t ->
  nth_error (schedule_trace slots options lastEndTime tasks) i = Some c ->
  nth_error (schedule_loop slots options lastEndTime tasks) i = Some (apply_commit t c).
Proof.
  revert lastEndTime i. induction tasks as [|t0 tasks IH]; intros last i Ht Hc;
    [destruct i; discriminate|].
  rewrite schedule_loop_cons. rewrite schedule_trace_cons in Hc.
  destruct i as [|i]; cbn [nth_error] in *.
  - congruence.
  - apply IH; assumption.
Qed.

Lemma getNextAvailableTime_some (date : Z) (slot : Schedule.t) (taskDuration : Z)
  (lastEndTime : option Z) (s e : Z) :
  getNextAvailableTime date slot taskDuration lastEndTime = Some (s, e) ->
  exists c, searchStart date lastEndTime <= c <= lookAheadEnd date
  /\ tryDurations c taskDuration lastEndTime
       (getAvailableDurationsForDate c slot lastEndTime) = Some (s, e).
Proof.
  unfold getNextAvailableTime. intros G. exact (scanDays_some _ _ _ _ _ _ _ _ G).
Qed.

Lemma commit_of_some (slots : list Schedule.t) (options : ScheduleOptions)
  (lastEndTime : option Z) (task : Task.t) (s e : Z) :
  commit_of slots options lastEndTime task = Some (s, e) ->
  exists slot, findSlotForTask task slots = Some slot
  /\ e <= endDate options
  /\ exists c, searchStart (startDate options) lastEndTime <= c
     /\ tryDurations c (Task.duration task) lastEndTime
          (getAvailableDurationsForDate c slot lastEndTime) = Some (s, e).
Proof.
  unfold commit_of.
  destruct (TaskStatus_eqb _ _); [discriminate|].
  destruct (findSlotForTask _ _) as [slot|]; [|discriminate].
  destruct (negb _); [discriminate|].
  destruct (getNextAvailableTime _ _ _ _) as [[s' e']|] eqn:G; [|discriminate].
  destruct (e' <=? endDate options) eqn:Le; [|discriminate].
  intros H. injection H as <- <-. apply Z.leb_le in Le.
  exists slot. split; [reflexivity|]. split; [exact Le|].
  destruct (getNextAvailableTime_some _ _ _ _ _ _ G) as [c [Hc T]].
  exists c. split; [apply Hc|exact T].
Qed.

Lemma searchStart_ge (date : Z) (lastEndTime : option Z) :
  date <= searchStart date lastEndTime
  /\ forall l, lastEndTime = Some l -> l <= searchStart date lastEndTime.
Proof.
  unfold searchStart. destruct lastEndTime as [l|].
  - destruct (date <? l) eqn:E; [apply Z.ltb_lt in E|apply Z.ltb_ge in E];
      split; try lia; intros l' H; injection H as <-; lia.
  - split; [lia|discriminate].
Qed.

Lemma Day_mono (a b : Z) : a <= b -> Day a <= Day b.
Proof. intros H. unfold Day. apply Z.div_le_mono; [unfold MS_PER_DAY; lia|exact H]. Qed.

Lemma findSlotForTask_in (task : Task.t) (slots : list Schedule.t) (slot : Schedule.t) :
  findSlotForTask task slots = Some slot -> In slot slots.
Proof. unfold findSlotForTask. intros H. apply find_some in H. apply H. Qed.

(** Every committed placement lasts exactly the task's duration. *)
Lemma commit_duration (slots : list Schedule.t) (options : ScheduleOptions)
  (lastEndTime : option Z) (task : Task.t) (s e : Z) :
  commit_of slots options lastEndTime task = Some (s, e) ->
  e = s + Task.duration task * MS_PER_MINUTE.
Proof.
  intros H. destruct (commit_of_some _ _ _ _ _ _ H) as [slot [_ [_ [c [_ T]]]]].
  destruct (tryDurations_some _ _ _ _ _ _ T) as [w [_ [He _]]]. exact He.
Qed.

(** Committed placements start and end on a whole minute. *)
Lemma commit_whole_minute (slots : list Schedule.t) (options : ScheduleOptions)
  (lastEndTime : option Z) (task : Task.t) (s e : Z) :
  cursor_ok lastEndTime ->
  commit_of slots options lastEndTime task = Some (s, e) ->
  s mod MS_PER_MINUTE = 0 /\ e mod MS_PER_MINUTE = 0.
Proof.
  intros Ok H. destruct (commit_of_some _ _ _ _ _ _ H) as [slot [_ [_ [c [_ T]]]]].
  destruct (tryDurations_some _ _ _ _ _ _ T) as [w [_ [He [_ Hs]]]].
  assert (Hsm : s mod MS_PER_MINUTE = 0).
  { destruct Hs as [[l [-> [_ [_ ->]]]] | [-> _]]; [exact Ok|].
    unfold setHours, MS_PER_DAY, MS_PER_HOUR, MS_PER_MINUTE.
    set (a := startMinutes (timeRange w) / 60).
    set (b := Z.rem (startMinutes (timeRange w)) 60).
    clearbody a b. Z.div_mod_to_equations. lia. }
  split; [exact Hsm|]. subst e. unfold MS_PER_MINUTE in *.
  Z.div_mod_to_equations. lia.
Qed.

(** Under well-formed schedules a committed placement starts no earlier than
    the cursor and no earlier than the day of the horizon's start. *)
Lemma commit_start_bounds (slots : list Schedule.t) (options : ScheduleOptions)
  (lastEndTime : option Z) (task : Task.t) (s e : Z) :
  Forall wf_schedule slots ->
  cursor_ok lastEndTime ->
  commit_of slots options lastEndTime task = Some (s, e) ->
  Day (startDate options) * MS_PER_DAY <= s
  /\ forall l, lastEndTime = Some l -> l <= s.
Proof.
  intros Wf Ok H. destruct (commit_of_some _ _ _ _ _ _ H) as [slot [Hslot [_ [c [Hc T]]]]].
  destruct (tryDurations_some _ _ _ _ _ _ T) as [w [Hw [_ [_ Hs]]]].
  destruct (getAvailableDurationsForDate_in _ _ _ _ Hw) as [Hws _].
  apply findSlotForTask_in in Hslot.
  assert (Hst : 0 <= startMinutes (timeRange w)).
  { rewrite Forall_forall in Wf. specialize (Wf _ Hslot).
    unfold wf_schedule in Wf. rewrite Forall_forall in Wf. apply (Wf _ Hws). }
  destruct (searchStart_ge (startDate options) lastEndTime) as [Hd Hl].
  pose proof (Day_mono _ _ (Z.le_trans _ _ _ Hd Hc)) as Hdc.
  destruct Hs as [[l [El [Same [_ ->]]]] | [-> Hnot]].
  - pose proof (Day_TimeWithinDay l) as [Hl1 Hl2].
    split.
    + rewrite Hl1, Same. nia.
    + intros l' E. rewrite El in E. injection E as <-. lia.
  - rewrite setHours_minute by exact Hst.
    split; [unfold MS_PER_DAY, MS_PER_MINUTE in *; nia|].
    intros l El. specialize (Hl l El).
    pose proof (Day_mono _ _ (Z.le_trans _ _ _ Hl Hc)) as Hlc.
    pose proof (Day_TimeWithinDay l) as [Hl1 Hl2].
    destruct (Z.eq_dec (Day l) (Day c)) as [Same|Diff].
    + specialize (Hnot l El Same). rewrite El in Ok. simpl in Ok.
      rewrite Hl1, Same.
      unfold MS_PER_DAY, MS_PER_MINUTE in *.
      set (tw := TimeWithinDay l) in *. set (dl := Day l) in *.
      clearbody tw dl. subst l.
      Z.div_mod_to_equations. nia.
    + assert (Day l + 1 <= Day c) by lia.
      unfold MS_PER_DAY, MS_PER_MINUTE in *. nia.
Qed.

Lemma cursor_ok_next (slots : list Schedule.t) (options : ScheduleOptions)
  (lastEndTime : option Z) (task : Task.t) :
  cursor_ok lastEndTime ->
  cursor_ok (next_cursor lastEndTime (commit_of slots options lastEndTime task)).
Proof.
  intros Ok. destruct (commit_of slots options lastEndTime task) as [[s e]|] eqn:C;
    simpl; [|exact Ok].
  apply (commit_whole_minute _ _ _ _ _ _ Ok C).
Qed.

Lemma schedule_trace_length (slots : list Schedule.t) (options : ScheduleOptions)
  (lastEndTime : option Z) (tasks : list Task.t) :
  List.length (schedule_trace slots options lastEndTime tasks) = List.length tasks.
Proof.
  revert lastEndTime. induction tasks as [|t tasks IH]; intros last; [reflexivity|].
  rewrite schedule_trace_cons. cbn [List.length]. rewrite IH. reflexivity.
Qed.

(** The trace from position [i] on is the trace of the remaining tasks from
    the cursor reached at [i]. *)
Lemma schedule_trace_skipn (slots : list Schedule.t) (options : ScheduleOptions)
  (i : nat) (tasks : list Task.t) (lastEndTime : option Z) :
  cursor_ok lastEndTime ->
  exists l', cursor_ok l'
  /\ skipn i (schedule_trace slots options lastEndTime tasks)
     = schedule_trace slots options l' (skipn i tasks).
Proof.
  revert tasks lastEndTime. induction i as [|i IH]; intros tasks last Ok.
  - exists last. split; [exact Ok|reflexivity].
  - destruct tasks as [|t tasks]; [exists last; split; [exact Ok|reflexivity]|].
    rewrite schedule_trace_cons. cbn [skipn].
    apply IH. apply cursor_ok_next. exact Ok.
Qed.

Lemma schedule_trace_commit (slots : list Schedule.t) (options : ScheduleOptions)
  (tasks : list Task.t) (lastEndTime : option Z) (i : nat) (c : option (Z * Z)) :
  cursor_ok lastEndTime ->
  nth_error (schedule_trace slots options lastEndTime tasks) i = Some c ->
  exists t l' rest, skipn i tasks = t :: rest /\ cursor_ok l'
  /\ c = commit_of slots options l' t
  /\ skipn (S i) (schedule_trace slots options lastEndTime tasks)
     = schedule_trace slots options (next_cursor l' c) rest.
Proof.
  intros Ok H. destruct (schedule_trace_skipn slots options i tasks _ Ok) as [l' [Ok' E]].
  assert (Hi : nth_error (skipn i (schedule_trace slots options lastEndTime tasks)) 0 = Some c).
  { rewrite nth_error_skipn, Nat.add_0_r. exact H. }
  rewrite E in Hi.
  destruct (skipn i tasks) as [|t rest] eqn:Sk; [discriminate|].
  rewrite schedule_trace_cons in Hi. cbn [nth_error] in Hi. injection Hi as Hc.
  exists t, l', rest. split; [reflexivity|]. split; [exact Ok'|]. split; [symmetry; exact Hc|].
  rewrite <- (skipn_skipn 1 i). rewrite E, schedule_trace_cons, Hc. reflexivity.
Qed.

(** Past a run of failed or skipped tasks the cursor is unchanged. *)
Lemma schedule_trace_gap (slots : list Schedule.t) (options : ScheduleOptions)
  (tasks : list Task.t) (lastEndTime : option Z) (j : nat) (c : option (Z * Z)) :
  (forall k, (k < j)%nat ->
     nth_error (schedule_trace slots options lastEndTime tasks) k = Some None) ->
  nth_error (schedule_trace slots options lastEndTime tasks) j = Some c ->
  exists t, nth_error tasks j = Some t /\ c = commit_of slots options lastEndTime t.
Proof.
  revert j. induction tasks as [|t tasks IH]; intros j Gap H; [destruct j; discriminate|].
  rewrite schedule_trace_cons in Gap, H.
  destruct j as [|j]; cbn [nth_error] in *.
  - exists t. split; [reflexivity|]. congruence.
  - assert (N : commit_of slots options lastEndTime t = None).
    { specialize (Gap 0%nat ltac:(lia)). cbn [nth_error] in Gap. congruence. }
    rewrite N in Gap, H. cbn [next_cursor] in Gap, H.
    apply IH; [|exact H].
    intros k Hk. specialize (Gap (S k) ltac:(lia)). exact Gap.
Qed.

Lemma commit_of_key (slots : list Schedule.t) (options : ScheduleOptions)
  (lastEndTime : option Z) (t1 t2 : Task.t) :
  task_key t1 = task_key t2 ->
  commit_of slots options lastEndTime t1 = commit_of slots options lastEndTime t2.
Proof.
  unfold task_key. intros E. injection E as Est Edur Eid.
  unfold commit_of, findSlotForTask, canTaskFitInSlot.
  rewrite Est, Edur, Eid. reflexivity.
Qed.

Lemma task_key_apply_commit (t : Task.t) (c : option (Z * Z)) :
  task_key (apply_commit t c) = task_key t.
Proof. destruct c as [[s e]|]; reflexivity. Qed.

Lemma schedule_trace_prefix (slots : list Schedule.t) (options : ScheduleOptions)
  (u v : list Task.t) (lastEndTime : option Z) (i : nat) :
  (forall j, (j <= i)%nat ->
     option_map task_key (nth_error u j) = option_map task_key (nth_error v j)) ->
  nth_error (schedule_trace slots options lastEndTime u) i
  = nth_error (schedule_trace slots options lastEndTime v) i.
Proof.
  revert v lastEndTime i. induction u as [|a u IH]; intros v last i K.
  - specialize (K i ltac:(lia)).
    assert (Hv : nth_error v i = None).
    { destruct (nth_error v i); [|reflexivity]. destruct i; discriminate. }
    assert (Hu : nth_error (schedule_trace slots options last []) i = None)
      by (destruct i; reflexivity).
    rewrite Hu. symmetry. apply nth_error_None.
    rewrite schedule_trace_length. apply nth_error_None. exact Hv.
  - destruct v as [|b v].
    + specialize (K 0%nat ltac:(lia)). discriminate.
    + assert (Kab : task_key a = task_key b).
      { specialize (K 0%nat ltac:(lia)). cbn in K. congruence. }
      rewrite !schedule_trace_cons, (commit_of_key _ _ _ _ _ Kab).
      destruct i as [|i]; cbn [nth_error]; [reflexivity|].
      apply IH. intros j Hj. exact (K (S j) ltac:(lia)).
Qed.

Lemma schedule_loop_idem (slots : list Schedule.t) (options : ScheduleOptions)
  (lastEndTime : option Z) (tasks : list Task.t) :
  schedule_loop slots options lastEndTime (schedule_loop slots options lastEndTime tasks)
  = schedule_loop slots options lastEndTime tasks.
Proof.
  revert lastEndTime. induction tasks as [|t tasks IH]; intros last; [reflexivity|].
  rewrite !schedule_loop_cons.
  rewrite (commit_of_key _ _ _ _ _ (task_key_apply_commit t _)).
  rewrite IH. f_equal.
  destruct (commit_of slots options last t) as [[s e]|]; reflexivity.
Qed.

Lemma scanDays_fuel_enough (slot : Schedule.t) (taskDuration : Z)
  (lastEndTime : option Z) (endDate : Z) (n : nat) (currentDate : Z) :
  (Z.to_nat (Day endDate - Day currentDate + 1) + 1 <= n)%nat ->
  scanDays_rel slot taskDuration lastEndTime endDate currentDate
    (scanDays n slot taskDuration lastEndTime endDate currentDate).
Proof.
  revert currentDate. induction n as [|n IH]; intros cur Hn; [lia|].
  cbn [scanDays].
  destruct (cur <=? endDate) eqn:Le.
  - apply Z.leb_le in Le.
    destruct (tryDurations _ _ _ _) as [r|] eqn:T.
    + apply scan_found; assumption.
    + apply (scan_next _ _ _ _ _ (nextDay cur)); try assumption; [reflexivity|].
      apply IH. rewrite nextDay_spec.
      replace (Day ((Day cur + 1) * MS_PER_DAY)) with (Day cur + 1)
        by (unfold Day; rewrite Z.div_mul; [reflexivity|unfold MS_PER_DAY; lia]).
      pose proof (Day_mono _ _ Le).
      assert (Z.to_nat (Day endDate - Day cur + 1)
              = S (Z.to_nat (Day endDate - (Day cur + 1) + 1))).
      { rewrite <- Z2Nat.inj_succ by lia. f_equal. lia. }
      lia.
  - apply Z.leb_gt in Le. apply scan_exit. exact Le.
Qed.

(** * Further lemmas on the search and the run *)

Lemma days_from_civil_next_year (y m d : Z) :
  365 <= days_from_civil (y + 1) m d - days_from_civil y m d <= 366.
Proof.
  unfold days_from_civil.
  destruct (m <=? 2); set (mp := if 2 <? m then m - 3 else m + 9); clearbody mp;
  Z.div_mod_to_equations; lia.
Qed.

Lemma lookAheadEnd_spec (date : Z) :
  365 <= Day (lookAheadEnd date) - Day date <= 366
  /\ TimeWithinDay (lookAheadEnd date) = TimeWithinDay date.
Proof.
  unfold lookAheadEnd, setFullYear, getFullYear, getMonth, getDate.
  pose proof (civil_roundtrip (Day date)) as R.
  pose proof (Day_TimeWithinDay date) as [_ Hw].
  destruct (civil_from_days (Day date)) as [[y m] d].
  replace (m - 1 + 1) with m by lia.
  rewrite Day_of, TimeWithinDay_of by exact Hw.
  split; [|reflexivity].
  rewrite <- R. apply days_from_civil_next_year.
Qed.

Lemma lookAheadEnd_gt (date : Z) : date < lookAheadEnd date.
Proof.
  destruct (lookAheadEnd_spec date) as [H1 H2].
  pose proof (Day_TimeWithinDay date) as [E1 _].
  pose proof (Day_TimeWithinDay (lookAheadEnd date)) as [E2 _].
  rewrite H2 in E2. unfold MS_PER_DAY in *. lia.
Qed.


Lemma nth_error_of_skipn {A : Type} (l : list A) (i : nat) (x : A) (rest : list A) :
  skipn i l = x :: rest -> nth_error l i = Some x.
Proof. intros Sk. rewrite <- (Nat.add_0_r i), <- nth_error_skipn, Sk. reflexivity. Qed.

Lemma In_of_skipn {A : Type} (l : list A) (i : nat) (x : A) (rest : list A) (y : A) :
  skipn i l = x :: rest -> In y rest -> In y l.
Proof.
  intros Sk Hy. rewrite <- (firstn_skipn i l), Sk.
  apply in_or_app. right. right. exact Hy.
Qed.

Lemma wf_window (slots : list Schedule.t) (slot : Schedule.t) (w : ScheduleSlot) :
  Forall wf_schedule slots -> In slot slots -> In w (Schedule.slots slot) -> wf_slot w.
Proof.
  intros Wf Hs Hw. rewrite Forall_forall in Wf. specialize (Wf _ Hs).
  unfold wf_schedule in Wf. rewrite Forall_forall in Wf. exact (Wf _ Hw).
Qed.

Lemma getDay_Day (a b : Z) : Day a = Day b -> getDay a = getDay b.
Proof. unfold getDay. intros ->. reflexivity. Qed.

(** Past the cursor, on the cursor's own day, the end of a placement of
    [d] minutes that stays before midnight. *)
Lemma minute_after_cursor (l d : Z) :
  0 <= d -> TimeWithinDay l / MS_PER_MINUTE + d < 1440 ->
  Day (l + d * MS_PER_MINUTE) = Day l
  /\ TimeWithinDay (l + d * MS_PER_MINUTE) / MS_PER_MINUTE
     = TimeWithinDay l / MS_PER_MINUTE + d.
Proof.
  intros Hd Hlt. pose proof (Day_TimeWithinDay l) as [El Hw].
  set (tw := TimeWithinDay l) in *. set (dl := Day l) in *.
  assert (B : 0 <= tw + d * MS_PER_MINUTE < MS_PER_DAY).
  { unfold MS_PER_DAY, MS_PER_MINUTE in *. Z.div_mod_to_equations. lia. }
  replace (l + d * MS_PER_MINUTE) with (dl * MS_PER_DAY + (tw + d * MS_PER_MINUTE)) by lia.
  rewrite Day_of, TimeWithinDay_of by exact B. split; [reflexivity|].
  rewrite Z.div_add by (unfold MS_PER_MINUTE; lia). reflexivity.
Qed.

Lemma tryDurations_at_cursor (l d : Z) (w : ScheduleSlot) (ws : list ScheduleSlot) :
  StronglySorted start_le ws -> In w ws ->
  0 <= d ->
  startMinutes (timeRange w) < TimeWithinDay l / MS_PER_MINUTE ->
  TimeWithinDay l / MS_PER_MINUTE + d <= endMinutes (timeRange w) ->
  endMinutes (timeRange w) < 1440 ->
  tryDurations l d (Some l) ws = Some (l, l + d * MS_PER_MINUTE).
Proof.
  intros Ss Hin Hd Hst Hfit Hend.
  destruct (minute_after_cursor l d Hd ltac:(lia)) as [_ Hm].
  induction ws as [|w0 ws IH]; [destruct Hin|].
  apply StronglySorted_inv in Ss as [Ss Hhd].
  assert (H0 : startMinutes (timeRange w0) <= startMinutes (timeRange w)).
  { destruct Hin as [<-|Hin]; [lia|].
    rewrite Forall_forall in Hhd. exact (Hhd _ Hin). }
  cbn [tryDurations].
  rewrite isSameDay_spec, Z.eqb_refl, !minuteOfDay. cbn [andb].
  replace (startMinutes (timeRange w0) <? TimeWithinDay l / MS_PER_MINUTE) with true
    by (symmetry; apply Z.ltb_lt; lia).
  rewrite setMinutes_add.
  rewrite Hm.
  destruct (_ <=? endMinutes (timeRange w0)) eqn:Fit; [reflexivity|].
  destruct Hin as [<-|Hin]; [apply Z.leb_gt in Fit; lia|].
  exact (IH Ss Hin).
Qed.

Lemma getAvailableDurationsForDate_at_cursor (l d : Z) (slot : Schedule.t)
  (w : ScheduleSlot) :
  In w (Schedule.slots slot) -> dayOfWeek w = getDay l -> 0 < d ->
  startMinutes (timeRange w) < TimeWithinDay l / MS_PER_MINUTE ->
  TimeWithinDay l / MS_PER_MINUTE + d <= endMinutes (timeRange w) ->
  In w (getAvailableDurationsForDate l slot (Some l)).
Proof.
  intros Hw Hdow Hd Hst Hfit. unfold getAvailableDurationsForDate.
  apply (Permutation_in _ (Permutation_sym (sort_by_start_perm _))).
  rewrite lastEndMinutes_of_spec, Z.eqb_refl.
  apply filter_In. split.
  - apply filter_In. split; [exact Hw|]. apply Z.eqb_eq. exact Hdow.
  - replace (endMinutes (timeRange w) <=? TimeWithinDay l / MS_PER_MINUTE) with false
      by (symmetry; apply Z.leb_gt; lia).
    replace (startMinutes (timeRange w) <? TimeWithinDay l / MS_PER_MINUTE) with true
      by (symmetry; apply Z.ltb_lt; lia).
    apply Z.ltb_lt. lia.
Qed.

(** From a cursor, the later commits of a run start at or after it. *)
Lemma schedule_trace_after_cursor (slots : list Schedule.t) (options : ScheduleOptions)
  (tasks : list Task.t) (l : Z) (k : nat) (s e : Z) :
  Forall wf_schedule slots ->
  Forall (fun t => 0 <= Task.duration t) tasks ->
  cursor_ok (Some l) ->
  nth_error (schedule_trace slots options (Some l) tasks) k = Some (Some (s, e)) ->
  l <= s.
Proof.
  intros Wf. revert l k. induction tasks as [|t tasks IH]; intros l k Dur Ok H;
    [destruct k; discriminate|].
  apply Forall_cons_iff in Dur as [Dt Dur].
  rewrite schedule_trace_cons in H.
  destruct (commit_of slots options (Some l) t) as [[s0 e0]|] eqn:C.
  - pose proof (commit_start_bounds _ _ _ _ _ _ Wf Ok C) as [_ Hs0].
    specialize (Hs0 l eq_refl).
    destruct k as [|k]; cbn [nth_error next_cursor] in H.
    + injection H as <- <-. exact Hs0.
    + pose proof (commit_duration _ _ _ _ _ _ C) as He0.
      pose proof (proj2 (commit_whole_minute _ _ _ _ _ _ Ok C)) as Ok0.
      specialize (IH e0 k Dur Ok0 H). unfold MS_PER_MINUTE in *. nia.
  - destruct k as [|k]; cbn [nth_error next_cursor] in H; [discriminate|].
    exact (IH l k Dur Ok H).
Qed.

Lemma getNextAvailableTime_eq (date : Z) (slot : Schedule.t) (taskDuration : Z)
  (lastEndTime : option Z) :
  getNextAvailableTime date slot taskDuration lastEndTime
  = scanDays (scanFuel (searchStart date lastEndTime) (lookAheadEnd date)) slot
      taskDuration lastEndTime (lookAheadEnd date) (searchStart date lastEndTime).
Proof. reflexivity. Qed.

Lemma scanFuel_S (currentDate endDate : Z) :
  scanFuel currentDate endDate = S (S (Z.to_nat (Day endDate - Day currentDate))).
Proof. unfold scanFuel. rewrite Nat.add_comm. reflexivity. Qed.

Lemma scanDays_S (fuel : nat) (slot : Schedule.t) (taskDuration : Z)
  (lastEndTime : option Z) (endDate currentDate : Z) :
  scanDays (S fuel) slot taskDuration lastEndTime endDate currentDate
  = if currentDate <=? endDate then
      match tryDurations currentDate taskDuration lastEndTime
              (getAvailableDurationsForDate currentDate slot lastEndTime) with
      | Some r => Some r
      | None => scanDays fuel slot taskDuration lastEndTime endDate (nextDay currentDate)
      end
    else None.
Proof. reflexivity. Qed.

(** * Scenarios *)

Example getDay_2024_03_25 : getDay (at_time 2024 3 25 0 0) = 1.
Proof. vm_compute. reflexivity. Qed.

Example scenario_single_fit :
  scheduled (schedule [mkTask "1" 60 NOT_STARTED] [workday] week)
  = [(Some (at_time 2024 3 25 9 0), Some (at_time 2024 3 25 10 0))].
Proof. vm_compute. reflexivity. Qed.

Example scenario_sequential :
  scheduled (schedule [mkTask "1" 120 NOT_STARTED; mkTask "2" 60 NOT_STARTED]
               [workday] week)
  = [(Some (at_time 2024 3 25 9 0), Some (at_time 2024 3 25 11 0));
     (Some (at_time 2024 3 25 11 0), Some (at_time 2024 3 25 12 0))].
Proof. vm_compute. reflexivity. Qed.

Example scenario_completed_skip :
  scheduled (schedule [mkTask "1" 60 COMPLETED; mkTask "2" 60 NOT_STARTED]
               [workday] week)
  = [(None, None);
     (Some (at_time 2024 3 25 9 0), Some (at_time 2024 3 25 10 0))].
Proof. vm_compute. reflexivity. Qed.

Example scenario_day_rollover :
  scheduled (schedule [mkTask "1" 480 NOT_STARTED; mkTask "2" 60 NOT_STARTED]
               [workday] week)
  = [(Some (at_time 2024 3 25 9 0), Some (at_time 2024 3 25 17 0));
     (Some (at_time 2024 3 26 9 0), Some (at_time 2024 3 26 10 0))].
Proof. vm_compute. reflexivity. Qed.

Example scenario_infeasible :
  scheduled (schedule [mkTask "1" 600 NOT_STARTED] [workday] week) = [(None, None)].
Proof. vm_compute. reflexivity. Qed.

(** One year from 2024-02-29 is 2025-03-01, as [setFullYear] overflows. *)
Example setFullYear_leap :
  setFullYear (at_time 2024 2 29 8 30) 2025 = at_time 2025 3 1 8 30.
Proof. vm_compute. reflexivity. Qed.

Lemma workday_wf : Forall wf_schedule [workday].
Proof.
  repeat constructor; unfold wf_slot; simpl; lia.
Qed.

Lemma lateNight_wf : Forall wf_schedule [lateNight].
Proof.
  repeat constructor; unfold wf_slot; simpl; lia.
Qed.

(** * The claims *)

(** C1. The spec: every committed interval lies inside one window instance of
    the task's schedule, on one calendar day; a task is never split across
    midnight. The fit test compares only the minute of day of the end, which
    wraps past midnight: a 2-hour task against the well-formed schedule
    [lateNight] (Monday 23:00-23:59, Tuesday 00:00-10:00) is committed from
    Monday 23:00 to Tuesday 01:00, across midnight and past the end of the
    Monday window. *)
Theorem schedule_splits_across_midnight :
  Forall wf_schedule [lateNight]
  /\ scheduled (schedule [lateTask] [lateNight] week)
     = [(Some (at_time 2024 3 25 23 0), Some (at_time 2024 3 26 1 0))]
  /\ Day (at_time 2024 3 25 23 0) <> Day (at_time 2024 3 26 1 0)
  /\ at_time 2024 3 25 (23 + 2) 0 = at_time 2024 3 26 1 0.
Proof.
  split; [exact lateNight_wf|].
  split; [vm_compute; reflexivity|].
  split; [vm_compute; discriminate|].
  vm_compute. reflexivity.
Qed.

(** C2, as stated: every commit starts at or after [options.startDate] and
    ends at or before [options.endDate]. False: with the horizon starting at
    Monday noon, a one-hour task is committed at Monday 09:00. *)
Lemma schedule_start_before_horizon_start :
  ~ (forall slots options tasks i s e,
       nth_error (schedule_trace slots options None tasks) i = Some (Some (s, e)) ->
       startDate options <= s /\ e <= endDate options).
Proof.
  intros H.
  assert (T : nth_error (schedule_trace [workday] middayWeek None
                           [mkTask "1" 60 NOT_STARTED]) 0
              = Some (Some (at_time 2024 3 25 9 0, at_time 2024 3 25 10 0)))
    by (vm_compute; reflexivity).
  destruct (H _ _ _ _ _ _ T) as [Hs _].
  vm_compute in Hs. exact (Hs eq_refl).
Qed.

(** C2, amended: with well-formed schedules every commit ends at or before
    [options.endDate] and starts at or after midnight of the calendar day of
    [options.startDate] (the time of day of [startDate] is not enforced). *)
Theorem schedule_commit_within_horizon_days (slots : list Schedule.t)
  (options : ScheduleOptions) (tasks : list Task.t) (i : nat) (s e : Z) :
  Forall wf_schedule slots ->
  nth_error (schedule_trace slots options None tasks) i = Some (Some (s, e)) ->
  Day (startDate options) * MS_PER_DAY <= s /\ e <= endDate options.
Proof.
  intros Wf H.
  destruct (schedule_trace_commit _ _ _ None _ _ I H) as [t [l' [rest [_ [Ok [C _]]]]]].
  symmetry in C.
  split.
  - exact (proj1 (commit_start_bounds _ _ _ _ _ _ Wf Ok C)).
  - destruct (commit_of_some _ _ _ _ _ _ C) as [_ [_ [He _]]]. exact He.
Qed.

Lemma schedule_commit_within_horizon_days_witness :
  Day (startDate week) * MS_PER_DAY <= at_time 2024 3 25 9 0
  /\ at_time 2024 3 25 10 0 <= endDate week.
Proof.
  apply (schedule_commit_within_horizon_days [workday] week
           [mkTask "1" 60 NOT_STARTED] 0).
  - exact workday_wf.
  - vm_compute. reflexivity.
Defined.

(** C3. With well-formed schedules, of two tasks committed one after the
    other (every task between them in input order skipped or failed), the
    second starts at or after the end of the first: the cursor only moves
    forward and consecutive commits do not overlap. *)
Theorem schedule_consecutive_commits_ordered (slots : list Schedule.t)
  (options : ScheduleOptions) (tasks : list Task.t) (i j : nat) (s1 e1 s2 e2 : Z) :
  Forall wf_schedule slots ->
  (i < j)%nat ->
  nth_error (schedule_trace slots options None tasks) i = Some (Some (s1, e1)) ->
  nth_error (schedule_trace slots options None tasks) j = Some (Some (s2, e2)) ->
  (forall k, (i < k < j)%nat ->
     nth_error (schedule_trace slots options None tasks) k = Some None) ->
  e1 <= s2.
Proof.
  intros Wf Hij Hi Hj Gap.
  destruct (schedule_trace_commit _ _ _ None _ _ I Hi) as [t [l' [rest [_ [Ok [C Sk]]]]]].
  symmetry in C. cbn [next_cursor] in Sk.
  assert (Ok1 : cursor_ok (Some e1)) by exact (proj2 (commit_whole_minute _ _ _ _ _ _ Ok C)).
  destruct (Nat.le_exists_sub (S i) j ltac:(lia)) as [j' [Ej _]].
  assert (Hj' : nth_error (schedule_trace slots options (Some e1) rest) j'
                = Some (Some (s2, e2))).
  { rewrite <- Sk, nth_error_skipn. rewrite <- Hj. f_equal. lia. }
  assert (Gap' : forall k, (k < j')%nat ->
            nth_error (schedule_trace slots options (Some e1) rest) k = Some None).
  { intros k Hk. rewrite <- Sk, nth_error_skipn. apply Gap. lia. }
  destruct (schedule_trace_gap _ _ _ _ _ _ Gap' Hj') as [t2 [_ C2]].
  symmetry in C2.
  destruct (commit_start_bounds _ _ _ _ _ _ Wf Ok1 C2) as [_ Hs].
  apply Hs. reflexivity.
Qed.

Definition twoTasks : list Task.t := [mkTask "1" 120 NOT_STARTED; mkTask "2" 60 NOT_STARTED].

Lemma schedule_consecutive_commits_ordered_witness :
  nth_error (schedule_trace [workday] week None twoTasks) 0
    = Some (Some (at_time 2024 3 25 9 0, at_time 2024 3 25 11 0))
  /\ nth_error (schedule_trace [workday] week None twoTasks) 1
    = Some (Some (at_time 2024 3 25 11 0, at_time 2024 3 25 12 0))
  /\ at_time 2024 3 25 11 0 <= at_time 2024 3 25 11 0.
Proof.
  split; [vm_compute; reflexivity|].
  split; [vm_compute; reflexivity|].
  apply (schedule_consecutive_commits_ordered [workday] week twoTasks 0 1
           (at_time 2024 3 25 9 0) _ _ (at_time 2024 3 25 12 0)).
  - exact workday_wf.
  - lia.
  - vm_compute. reflexivity.
  - vm_compute. reflexivity.
  - intros k Hk. lia.
Defined.

(** C4. A task whose schedule id is unknown, whose duration exceeds every
    window's span, for which the search finds nothing, or whose fit ends after
    [options.endDate], is returned as it came in (its scheduled dates neither
    set nor cleared) and the next task is searched from the same cursor. *)
Theorem schedule_failure_leaves_task (slots : list Schedule.t)
  (options : ScheduleOptions) (lastEndTime : option Z) (t : Task.t)
  (rest : list Task.t) :
  (findSlotForTask t slots = None
   \/ exists slot, findSlotForTask t slots = Some slot
      /\ (canTaskFitInSlot t slot = false
          \/ getNextAvailableTime (startDate options) slot (Task.duration t)
               lastEndTime = None
          \/ exists s e, getNextAvailableTime (startDate options) slot
                           (Task.duration t) lastEndTime = Some (s, e)
                         /\ endDate options < e)) ->
  schedule_loop slots options lastEndTime (t :: rest)
  = t :: schedule_loop slots options lastEndTime rest.
Proof.
  intros Fail.
  assert (C : commit_of slots options lastEndTime t = None).
  { unfold commit_of. destruct (TaskStatus_eqb _ _); [reflexivity|].
    destruct Fail as [F | [slot [F [Fit | [G | [s [e [G Late]]]]]]]]; rewrite F;
      [reflexivity| | |].
    - rewrite Fit. reflexivity.
    - destruct (negb _); [reflexivity|]. rewrite G. reflexivity.
    - destruct (negb _); [reflexivity|]. rewrite G.
      destruct (e <=? endDate options) eqn:E; [apply Z.leb_le in E; lia|reflexivity]. }
  rewrite schedule_loop_cons, C. reflexivity.
Qed.

Lemma schedule_failure_leaves_task_witness :
  schedule_loop [workday] week None [mkTask "1" 600 NOT_STARTED]
  = [mkTask "1" 600 NOT_STARTED].
Proof.
  apply (schedule_failure_leaves_task [workday] week None (mkTask "1" 600 NOT_STARTED) []).
  right. exists workday. split; [reflexivity|]. left. vm_compute. reflexivity.
Defined.

(** C5. Every commit lasts exactly the task's duration: the task returned at
    that position carries the committed dates, and their difference is
    [duration] minutes. *)
Theorem schedule_commit_duration (slots : list Schedule.t)
  (options : ScheduleOptions) (tasks : list Task.t) (i : nat) (s e : Z) :
  nth_error (schedule_trace slots options None tasks) i = Some (Some (s, e)) ->
  exists t, nth_error (schedule tasks slots options) i = Some t
  /\ Task.scheduledStartDate t = Some s /\ Task.scheduledEndDate t = Some e
  /\ e - s = Task.duration t * MS_PER_MINUTE.
Proof.
  intros H.
  destruct (schedule_trace_commit _ _ _ None _ _ I H) as [t [l' [rest [Sk [_ [C _]]]]]].
  symmetry in C.
  assert (Ht : nth_error tasks i = Some t).
  { rewrite <- (Nat.add_0_r i), <- nth_error_skipn, Sk. reflexivity. }
  exists (Task.set_scheduled t s e).
  split.
  - unfold schedule. rewrite (schedule_loop_nth _ _ _ _ _ _ _ Ht H). reflexivity.
  - split; [reflexivity|]. split; [reflexivity|].
    pose proof (commit_duration _ _ _ _ _ _ C). simpl. lia.
Qed.

Lemma schedule_commit_duration_witness :
  exists t, nth_error (schedule twoTasks [workday] week) 1 = Some t
  /\ Task.scheduledStartDate t = Some (at_time 2024 3 25 11 0)
  /\ Task.scheduledEndDate t = Some (at_time 2024 3 25 12 0)
  /\ at_time 2024 3 25 12 0 - at_time 2024 3 25 11 0 = Task.duration t * MS_PER_MINUTE.
Proof.
  apply (schedule_commit_duration [workday] week twoTasks 1).
  vm_compute. reflexivity.
Defined.

(** C6. The window resolver returns, sorted ascending by [startMinutes], a
    permutation of exactly the schedule's entries for the date's day of week
    whose [endMinutes] exceeds [lastEndMinutes] (the cursor's minute of day
    when the cursor lies on the date's calendar day, 0 otherwise); entries
    are returned as stored and duplicates or overlaps are all kept. *)
Theorem getAvailableDurationsForDate_spec (date : Z) (slot : Schedule.t)
  (lastEndTime : option Z) :
  let lastEndMinutes :=
    match lastEndTime with
    | Some l => if Day l =? Day date then TimeWithinDay l / MS_PER_MINUTE else 0
    | None => 0
    end in
  Permutation (getAvailableDurationsForDate date slot lastEndTime)
    (filter (fun d => (dayOfWeek d =? getDay date)
                      && (lastEndMinutes <? endMinutes (timeRange d)))
       (Schedule.slots slot))
  /\ Sorted start_le (getAvailableDurationsForDate date slot lastEndTime).
Proof.
  intros lastEndMinutes. split; [|apply sort_by_start_sorted].
  unfold getAvailableDurationsForDate. rewrite sort_by_start_perm.
  rewrite lastEndMinutes_of_spec. fold lastEndMinutes.
  induction (Schedule.slots slot) as [|d ds IH]; [reflexivity|].
  cbn [filter]. destruct (dayOfWeek d =? getDay date); cbn [andb]; [|exact IH].
  cbn [filter].
  destruct (endMinutes (timeRange d) <=? lastEndMinutes) eqn:E1.
  - apply Z.leb_le in E1.
    replace (lastEndMinutes <? endMinutes (timeRange d)) with false
      by (symmetry; apply Z.ltb_ge; lia).
    exact IH.
  - apply Z.leb_gt in E1.
    replace (lastEndMinutes <? endMinutes (timeRange d)) with true
      by (symmetry; apply Z.ltb_lt; lia).
    replace (if startMinutes (timeRange d) <? lastEndMinutes
             then 0 <? endMinutes (timeRange d) - lastEndMinutes else true) with true.
    + apply perm_skip. exact IH.
    + destruct (_ <? lastEndMinutes); [symmetry; apply Z.ltb_lt; lia|reflexivity].
Qed.

(** C7. The scheduling decision reads only a task's status, duration and
    schedule id, and the cursor. Re-running [schedule] on a list [u] that
    agrees with the first run's input on those fields up to position [i]
    (and carries the first run's dates at [i]) makes the same commit at [i]
    and returns the same dates there; in particular re-running on the output
    of a run returns that output unchanged. *)
Theorem schedule_rerun_reproduces_commits (slots : list Schedule.t)
  (options : ScheduleOptions) (tasks u : list Task.t) (i : nat) :
  (forall j, (j <= i)%nat ->
     option_map task_key (nth_error u j) = option_map task_key (nth_error tasks j)) ->
  option_map scheduled_fields (nth_error u i)
  = option_map scheduled_fields (nth_error (schedule tasks slots options) i) ->
  nth_error (schedule_trace slots options None u) i
  = nth_error (schedule_trace slots options None tasks) i
  /\ option_map scheduled_fields (nth_error (schedule u slots options) i)
     = option_map scheduled_fields (nth_error (schedule tasks slots options) i)
  /\ schedule (schedule tasks slots options) slots options = schedule tasks slots options.
Proof.
  intros K F.
  assert (Tr : nth_error (schedule_trace slots options None u) i
               = nth_error (schedule_trace slots options None tasks) i)
    by (apply schedule_trace_prefix; exact K).
  split; [exact Tr|]. split; [|apply schedule_loop_idem].
  specialize (K i (Nat.le_refl i)).
  destruct (nth_error tasks i) as [t|] eqn:Ht.
  - destruct (nth_error u i) as [t'|] eqn:Hu; [|discriminate].
    destruct (nth_error (schedule_trace slots options None tasks) i) as [c|] eqn:Hc.
    2:{ apply nth_error_None in Hc. rewrite schedule_trace_length in Hc.
        apply nth_error_None in Hc. congruence. }
    unfold schedule in *.
    rewrite (schedule_loop_nth _ _ _ _ _ _ _ Hu Tr).
    rewrite (schedule_loop_nth _ _ _ _ _ _ _ Ht Hc) in F |- *.
    destruct c as [[s e]|]; [reflexivity|]. exact F.
  - destruct (nth_error u i) as [t'|] eqn:Hu; [discriminate|].
    unfold schedule.
    assert (L : forall v, nth_error v i = None ->
                nth_error (schedule_loop slots options None v) i = None).
    { intros v Hv. apply nth_error_None. apply nth_error_None in Hv.
      clear -Hv. revert i Hv. generalize (@None Z) as last.
      induction v as [|a v IH]; intros last i Hv; [simpl; lia|].
      rewrite schedule_loop_cons. destruct i as [|i]; cbn in *; [lia|].
      specialize (IH (next_cursor last (commit_of slots options last a)) i). lia. }
    rewrite (L u Hu), (L tasks Ht). reflexivity.
Qed.

Lemma schedule_rerun_reproduces_commits_witness :
  let out := schedule twoTasks [workday] week in
  nth_error (schedule_trace [workday] week None out) 1
  = nth_error (schedule_trace [workday] week None twoTasks) 1
  /\ option_map scheduled_fields (nth_error (schedule out [workday] week) 1)
     = option_map scheduled_fields (nth_error out 1)
  /\ schedule out [workday] week = out.
Proof.
  apply (schedule_rerun_reproduces_commits [workday] week twoTasks
           (schedule twoTasks [workday] week) 1).
  - intros j Hj. destruct j as [|[|j]]; [vm_compute; reflexivity|vm_compute; reflexivity|lia].
  - reflexivity.
Defined.

(** C8. A COMPLETED task is returned unchanged, all its fields included, and
    the next task is searched from the same cursor. *)
Theorem schedule_skips_completed (slots : list Schedule.t)
  (options : ScheduleOptions) (lastEndTime : option Z) (t : Task.t)
  (rest : list Task.t) :
  Task.status t = COMPLETED ->
  schedule_loop slots options lastEndTime (t :: rest)
  = t :: schedule_loop slots options lastEndTime rest.
Proof.
  intros St. rewrite schedule_loop_cons.
  unfold commit_of. rewrite St. reflexivity.
Qed.

Lemma schedule_skips_completed_witness :
  schedule_loop [workday] week None [mkTask "1" 60 COMPLETED; mkTask "2" 60 NOT_STARTED]
  = mkTask "1" 60 COMPLETED :: schedule_loop [workday] week None [mkTask "2" 60 NOT_STARTED].
Proof.
  apply schedule_skips_completed. reflexivity.
Defined.

(** C9. The day-by-day loop of [getNextAvailableTime] terminates on every
    input: its result is reached by finitely many rounds of the [while] loop
    (the relation [scanDays_rel], which has no bound of its own), and a fit
    is only found on a day scanned between the search start and one year past
    the origin date, inclusive; past that the loop exits with no result. *)
Theorem getNextAvailableTime_terminates (date : Z) (slot : Schedule.t)
  (taskDuration : Z) (lastEndTime : option Z) :
  scanDays_rel slot taskDuration lastEndTime (lookAheadEnd date)
    (searchStart date lastEndTime)
    (getNextAvailableTime date slot taskDuration lastEndTime)
  /\ forall s e, getNextAvailableTime date slot taskDuration lastEndTime = Some (s, e) ->
     exists c, searchStart date lastEndTime <= c <= lookAheadEnd date
     /\ tryDurations c taskDuration lastEndTime
          (getAvailableDurationsForDate c slot lastEndTime) = Some (s, e).
Proof.
  split.
  - unfold getNextAvailableTime. apply scanDays_fuel_enough.
    unfold scanFuel. lia.
  - intros s e G. exact (getNextAvailableTime_some _ _ _ _ _ _ G).
Qed.

(** C10. An IN_PROGRESS task is processed exactly as the same task with
    status NOT_STARTED (only its status differs in the result): it is searched,
    and on success its dates are overwritten and the cursor advances. *)
Theorem schedule_in_progress_like_not_started (slots : list Schedule.t)
  (options : ScheduleOptions) (lastEndTime : option Z) (t : Task.t)
  (rest : list Task.t) :
  Task.status t = IN_PROGRESS ->
  schedule_loop slots options lastEndTime (t :: rest)
  = match schedule_loop slots options lastEndTime (with_status t NOT_STARTED :: rest) with
    | t' :: r => with_status t' IN_PROGRESS :: r
    | [] => []
    end
  /\ forall s e, commit_of slots options lastEndTime t = Some (s, e) ->
     schedule_loop slots options lastEndTime (t :: rest)
     = Task.set_scheduled t s e :: schedule_loop slots options (Some e) rest.
Proof.
  intros St.
  assert (C : commit_of slots options lastEndTime t
              = commit_of slots options lastEndTime (with_status t NOT_STARTED)).
  { unfold commit_of, findSlotForTask, canTaskFitInSlot. rewrite St. reflexivity. }
  split.
  - rewrite !schedule_loop_cons, <- C.
    f_equal. destruct t; cbn in St; subst.
    destruct (commit_of _ _ _ _) as [[s e]|]; reflexivity.
  - intros s e Hc. rewrite schedule_loop_cons, Hc. reflexivity.
Qed.

Lemma schedule_in_progress_like_not_started_witness :
  schedule_loop [workday] week None [mkTask "1" 60 IN_PROGRESS]
  = match schedule_loop [workday] week None
            [with_status (mkTask "1" 60 IN_PROGRESS) NOT_STARTED] with
    | t' :: r => with_status t' IN_PROGRESS :: r
    | [] => []
    end.
Proof.
  refine (proj1 (schedule_in_progress_like_not_started [workday] week None
                   (mkTask "1" 60 IN_PROGRESS) [] _)).
  reflexivity.
Defined.

(** * Further properties of the scheduler *)


(** X2. With well-formed schedules, a committed placement starts inside a window
    of the task's schedule for the start's day of week: the start's minute of
    day lies in [startMinutes, endMinutes). The end's minute of day is at most
    [endMinutes], so when the end falls on the start's day, the placement
    lies within that window instance. *)
Theorem schedule_commit_in_window (slots : list Schedule.t) (options : ScheduleOptions)
  (tasks : list Task.t) (i : nat) (s e : Z) :
  Forall wf_schedule slots ->
  nth_error (schedule_trace slots options None tasks) i = Some (Some (s, e)) ->
  exists t slot w, nth_error tasks i = Some t
  /\ findSlotForTask t slots = Some slot /\ In w (Schedule.slots slot)
  /\ dayOfWeek w = getDay s
  /\ startMinutes (timeRange w) <= TimeWithinDay s / MS_PER_MINUTE
     < endMinutes (timeRange w)
  /\ TimeWithinDay e / MS_PER_MINUTE <= endMinutes (timeRange w).
Proof.
  intros Wf H.
  destruct (schedule_trace_commit _ _ _ None _ _ I H) as [t [l' [rest [Sk [Ok [C _]]]]]].
  symmetry in C.
  destruct (commit_of_some _ _ _ _ _ _ C) as [slot [Hslot [_ [c [_ T]]]]].
  destruct (tryDurations_some _ _ _ _ _ _ T) as [w [Hw [_ [He Hs]]]].
  destruct (getAvailableDurationsForDate_in _ _ _ _ Hw) as [Hws [Hdow Hlast]].
  pose proof (wf_window _ _ _ Wf (findSlotForTask_in _ _ _ Hslot) Hws) as [Hw1 [Hw2 _]].
  exists t, slot, w.
  split; [exact (nth_error_of_skipn _ _ _ _ Sk)|].
  split; [exact Hslot|]. split; [exact Hws|].
  rewrite minuteOfDay in He.
  destruct Hs as [[l [El [Same [Hlt ->]]]] | [-> _]].
  - rewrite El, lastEndMinutes_of_spec, Same, Z.eqb_refl in Hlast.
    split; [rewrite Hdow; exact (getDay_Day _ _ (eq_sym Same))|].
    split; [lia|exact He].
  - rewrite setHours_minute by lia.
    assert (B : 0 <= startMinutes (timeRange w) * MS_PER_MINUTE < MS_PER_DAY)
      by (unfold MS_PER_DAY, MS_PER_MINUTE; lia).
    split.
    + rewrite Hdow. apply getDay_Day. rewrite Day_of by exact B. reflexivity.
    + rewrite TimeWithinDay_of, Z.div_mul by (exact B || (unfold MS_PER_MINUTE; lia)).
      split; [lia|exact He].
Qed.

Lemma schedule_commit_in_window_witness :
  exists t slot w, nth_error [mkTask "1" 60 NOT_STARTED] 0 = Some t
  /\ findSlotForTask t [workday] = Some slot /\ In w (Schedule.slots slot)
  /\ dayOfWeek w = getDay (at_time 2024 3 25 9 0)
  /\ startMinutes (timeRange w) <= TimeWithinDay (at_time 2024 3 25 9 0) / MS_PER_MINUTE
     < endMinutes (timeRange w)
  /\ TimeWithinDay (at_time 2024 3 25 10 0) / MS_PER_MINUTE <= endMinutes (timeRange w).
Proof.
  apply (schedule_commit_in_window [workday] week [mkTask "1" 60 NOT_STARTED] 0).
  - exact workday_wf.
  - vm_compute. reflexivity.
Defined.

(** X3. With well-formed schedules, the first commit of a run (every earlier task
    skipped or failed) starts exactly at the [startMinutes] of a window of the
    task's schedule for its day of week: with no cursor, the search only
    places tasks at window starts. *)
Theorem schedule_first_commit_at_window_start (slots : list Schedule.t)
  (options : ScheduleOptions) (tasks : list Task.t) (i : nat) (s e : Z) :
  Forall wf_schedule slots ->
  (forall k, (k < i)%nat -> nth_error (schedule_trace slots options None tasks) k = Some None) ->
  nth_error (schedule_trace slots options None tasks) i = Some (Some (s, e)) ->
  exists t slot w, nth_error tasks i = Some t
  /\ findSlotForTask t slots = Some slot /\ In w (Schedule.slots slot)
  /\ dayOfWeek w = getDay s
  /\ TimeWithinDay s = startMinutes (timeRange w) * MS_PER_MINUTE.
Proof.
  intros Wf Gap H.
  destruct (schedule_trace_gap _ _ _ _ _ _ Gap H) as [t [Ht C]]. symmetry in C.
  destruct (commit_of_some _ _ _ _ _ _ C) as [slot [Hslot [_ [c [_ T]]]]].
  destruct (tryDurations_some _ _ _ _ _ _ T) as [w [Hw [_ [_ Hs]]]].
  destruct (getAvailableDurationsForDate_in _ _ _ _ Hw) as [Hws [Hdow _]].
  pose proof (wf_window _ _ _ Wf (findSlotForTask_in _ _ _ Hslot) Hws) as [Hw1 [Hw2 _]].
  exists t, slot, w. split; [exact Ht|]. split; [exact Hslot|]. split; [exact Hws|].
  destruct Hs as [[l [El _]] | [-> _]]; [discriminate|].
  rewrite setHours_minute by lia.
  assert (B : 0 <= startMinutes (timeRange w) * MS_PER_MINUTE < MS_PER_DAY)
    by (unfold MS_PER_DAY, MS_PER_MINUTE; lia).
  split.
  - rewrite Hdow. apply getDay_Day. rewrite Day_of by exact B. reflexivity.
  - rewrite TimeWithinDay_of by exact B. reflexivity.
Qed.

Lemma schedule_first_commit_at_window_start_witness :
  exists t slot w, nth_error [mkTask "1" 60 COMPLETED; mkTask "2" 60 NOT_STARTED] 1 = Some t
  /\ findSlotForTask t [workday] = Some slot /\ In w (Schedule.slots slot)
  /\ dayOfWeek w = getDay (at_time 2024 3 25 9 0)
  /\ TimeWithinDay (at_time 2024 3 25 9 0) = startMinutes (timeRange w) * MS_PER_MINUTE.
Proof.
  apply (schedule_first_commit_at_window_start [workday] week
           [mkTask "1" 60 COMPLETED; mkTask "2" 60 NOT_STARTED] 1
           (at_time 2024 3 25 9 0) (at_time 2024 3 25 10 0)).
  - exact workday_wf.
  - intros k Hk. destruct k as [|k]; [vm_compute; reflexivity|lia].
  - vm_compute. reflexivity.
Defined.

(** X4. Suppose the cursor [l] is inside a window of its own day of week: the
    window starts before the cursor's minute of day, and the cursor's minute
    of day plus the duration is at most the window's end. If the cursor lies
    between the origin date and one year after it, the search returns the
    placement that starts exactly at the cursor and lasts the task's
    duration: the next task continues where the previous one ended. *)
Theorem getNextAvailableTime_continues_at_cursor (date : Z) (slot : Schedule.t)
  (taskDuration l : Z) (w : ScheduleSlot) :
  wf_schedule slot ->
  date <= l <= lookAheadEnd date ->
  0 < taskDuration ->
  In w (Schedule.slots slot) -> dayOfWeek w = getDay l ->
  startMinutes (timeRange w) < TimeWithinDay l / MS_PER_MINUTE ->
  TimeWithinDay l / MS_PER_MINUTE + taskDuration <= endMinutes (timeRange w) ->
  getNextAvailableTime date slot taskDuration (Some l)
  = Some (l, l + taskDuration * MS_PER_MINUTE).
Proof.
  intros Wf [Hdl Hle] Hd Hw Hdow Hst Hfit.
  assert (Hend : endMinutes (timeRange w) < 1440).
  { unfold wf_schedule in Wf. rewrite Forall_forall in Wf. apply (Wf _ Hw). }
  assert (Ss : searchStart date (Some l) = l).
  { unfold searchStart. destruct (date <? l) eqn:E; [reflexivity|apply Z.ltb_ge in E; lia]. }
  rewrite getNextAvailableTime_eq, Ss, scanFuel_S, scanDays_S.
  replace (l <=? lookAheadEnd date) with true by (symmetry; apply Z.leb_le; lia).
  rewrite (tryDurations_at_cursor l taskDuration w); try lia; [reflexivity| |].
  - apply Sorted_StronglySorted; [red; unfold start_le; intros; lia|apply sort_by_start_sorted].
  - apply (getAvailableDurationsForDate_at_cursor l taskDuration); assumption.
Qed.

Lemma getNextAvailableTime_continues_at_cursor_witness :
  getNextAvailableTime (startDate week) workday 60 (Some (at_time 2024 3 25 11 0))
  = Some (at_time 2024 3 25 11 0, at_time 2024 3 25 11 0 + 60 * MS_PER_MINUTE).
Proof.
  apply (getNextAvailableTime_continues_at_cursor (startDate week) workday 60
           (at_time 2024 3 25 11 0) (nineToFive 1)).
  - exact (Forall_inv workday_wf).
  - split; apply Z.leb_le; vm_compute; reflexivity.
  - lia.
  - left. reflexivity.
  - vm_compute. reflexivity.
  - apply Z.ltb_lt. vm_compute. reflexivity.
  - apply Z.leb_le. vm_compute. reflexivity.
Defined.

(** X5. A cursor later than one year after the origin date makes the search
    start past its look-ahead bound: no placement is found. *)
Theorem getNextAvailableTime_past_lookahead (date : Z) (slot : Schedule.t)
  (taskDuration l : Z) :
  lookAheadEnd date < l ->
  getNextAvailableTime date slot taskDuration (Some l) = None.
Proof.
  intros H. pose proof (lookAheadEnd_gt date).
  assert (Ss : searchStart date (Some l) = l).
  { unfold searchStart. replace (date <? l) with true by (symmetry; apply Z.ltb_lt; lia).
    reflexivity. }
  rewrite getNextAvailableTime_eq, Ss, scanFuel_S, scanDays_S.
  replace (l <=? lookAheadEnd date) with false by (symmetry; apply Z.leb_gt; lia).
  reflexivity.
Qed.

Lemma getNextAvailableTime_past_lookahead_witness :
  getNextAvailableTime (startDate week) workday 60 (Some (at_time 2025 3 26 0 0)) = None.
Proof.
  apply getNextAvailableTime_past_lookahead.
  apply Z.ltb_lt. vm_compute. reflexivity.
Defined.

(** X6. The look-ahead bound of the search ([setFullYear] to the next year) is 365
    or 366 days after the origin date, at the same time of day. *)
Theorem lookAheadEnd_one_year (date : Z) :
  365 <= Day (lookAheadEnd date) - Day date <= 366
  /\ TimeWithinDay (lookAheadEnd date) = TimeWithinDay date.
Proof. exact (lookAheadEnd_spec date). Qed.

(** X7. With well-formed schedules and nonnegative task durations, any two commits
    of a run are disjoint and ordered as their tasks are: a commit at an
    earlier position ends no later than a commit at a later position starts. *)
Theorem schedule_commits_pairwise_ordered (slots : list Schedule.t)
  (options : ScheduleOptions) (tasks : list Task.t) (i j : nat) (s1 e1 s2 e2 : Z) :
  Forall wf_schedule slots ->
  Forall (fun t => 0 <= Task.duration t) tasks ->
  (i < j)%nat ->
  nth_error (schedule_trace slots options None tasks) i = Some (Some (s1, e1)) ->
  nth_error (schedule_trace slots options None tasks) j = Some (Some (s2, e2)) ->
  s1 <= e1 <= s2.
Proof.
  intros Wf Dur Hij Hi Hj.
  destruct (schedule_trace_commit _ _ _ None _ _ I Hi) as [t [l' [rest [Sk [Ok [C Tr]]]]]].
  symmetry in C. cbn [next_cursor] in Tr.
  pose proof (commit_duration _ _ _ _ _ _ C) as He1.
  assert (Dt : 0 <= Task.duration t).
  { rewrite Forall_forall in Dur. apply Dur.
    apply (nth_error_In _ i). exact (nth_error_of_skipn _ _ _ _ Sk). }
  split; [unfold MS_PER_MINUTE in *; nia|].
  assert (Ok1 : cursor_ok (Some e1)) by exact (proj2 (commit_whole_minute _ _ _ _ _ _ Ok C)).
  destruct (Nat.le_exists_sub (S i) j ltac:(lia)) as [j' [Ej _]].
  apply (schedule_trace_after_cursor slots options rest e1 j' s2 e2 Wf).
  - rewrite Forall_forall in Dur |- *. intros x Hx. apply Dur.
    exact (In_of_skipn _ _ _ _ _ Sk Hx).
  - exact Ok1.
  - rewrite <- Tr, nth_error_skipn, <- Hj. f_equal. lia.
Qed.

Lemma schedule_commits_pairwise_ordered_witness :
  at_time 2024 3 25 9 0 <= at_time 2024 3 25 11 0 <= at_time 2024 3 26 9 0.
Proof.
  apply (schedule_commits_pairwise_ordered [workday] week
           [mkTask "1" 120 NOT_STARTED; mkTask "2" 600 NOT_STARTED; mkTask "3" 420 NOT_STARTED]
           0 2 _ _ _ (at_time 2024 3 26 16 0)).
  - exact workday_wf.
  - repeat constructor; cbn; lia.
  - lia.
  - vm_compute. reflexivity.
  - vm_compute. reflexivity.
Defined.

(** X8. When no schedule has the schedule id of any task, [schedule] returns its
    input unchanged. *)
Theorem schedule_no_matching_schedule (tasks : list Task.t) (slots : list Schedule.t)
  (options : ScheduleOptions) :
  (forall t, In t tasks -> findSlotForTask t slots = None) ->
  schedule tasks slots options = tasks.
Proof.
  unfold schedule. generalize (@None Z) as last.
  induction tasks as [|t tasks IH]; intros last H; [reflexivity|].
  rewrite schedule_loop_cons.
  assert (C : commit_of slots options last t = None).
  { unfold commit_of. rewrite (H t (or_introl eq_refl)).
    destruct (TaskStatus_eqb _ _); reflexivity. }
  rewrite C. cbn [apply_commit next_cursor]. f_equal.
  apply IH. intros t' Ht'. apply H. right. exact Ht'.
Qed.

Lemma schedule_no_matching_schedule_witness :
  schedule [mkTask "1" 60 NOT_STARTED] [lateNight] week = [mkTask "1" 60 NOT_STARTED].
Proof.
  apply schedule_no_matching_schedule.
  intros t [<-|[]]. vm_compute. reflexivity.
Defined.


(** X10. COMPLETED tasks do not affect the others: scheduling the input with its
    COMPLETED tasks removed gives the result with its COMPLETED tasks
    removed. *)
Theorem schedule_filter_completed (tasks : list Task.t) (slots : list Schedule.t)
  (options : ScheduleOptions) :
  schedule (filter (fun t => negb (TaskStatus_eqb (Task.status t) COMPLETED)) tasks)
    slots options
  = filter (fun t => negb (TaskStatus_eqb (Task.status t) COMPLETED))
      (schedule tasks slots options).
Proof.
  unfold schedule. generalize (@None Z) as last.
  induction tasks as [|t tasks IH]; intros last; [reflexivity|].
  rewrite schedule_loop_cons. cbn [filter].
  destruct (TaskStatus_eqb (Task.status t) COMPLETED) eqn:St.
  - assert (C : commit_of slots options last t = None) by (unfold commit_of; rewrite St; reflexivity).
    rewrite C. cbn [apply_commit next_cursor negb]. rewrite St. cbn [negb]. apply IH.
  - cbn [negb]. rewrite schedule_loop_cons.
    replace (Task.status (apply_commit t (commit_of slots options last t))) with (Task.status t)
      by (destruct (commit_of slots options last t) as [[s e]|]; reflexivity).
    rewrite St. cbn [negb]. f_equal. apply IH.
Qed.

(** X11. When several schedules share the task's schedule id, [findSlotForTask]
    returns the first of them in list order. *)
Theorem findSlotForTask_first_match (task : Task.t) (pre post : list Schedule.t)
  (sch : Schedule.t) :
  Forall (fun s => Schedule.id s <> Task.scheduleId task) pre ->
  Schedule.id sch = Task.scheduleId task ->
  findSlotForTask task (pre ++ sch :: post) = Some sch.
Proof.
  intros Pre Hid. unfold findSlotForTask.
  induction Pre as [|s pre Hs Pre IH]; cbn [app find].
  - rewrite Hid, String.eqb_refl. reflexivity.
  - destruct (String.eqb_spec (Schedule.id s) (Task.scheduleId task)) as [E|_];
      [contradiction|exact IH].
Qed.

Lemma findSlotForTask_first_match_witness :
  findSlotForTask (mkTask "1" 60 NOT_STARTED)
    ([lateNight] ++ workday :: [Schedule.mk "workday" "Duplicate" []]) = Some workday.
Proof.
  apply findSlotForTask_first_match.
  - constructor; [cbn; discriminate|constructor].
  - reflexivity.
Defined.

(** X12. [isSameDay] compares year, month and date, which is the same as comparing
    the local day numbers of the two times. *)
Theorem isSameDay_iff (a b : Z) : isSameDay a b = true <-> Day a = Day b.
Proof. rewrite isSameDay_spec. apply Z.eqb_eq. Qed.
